(** * Presentational components: BottomTabIcon and NuggetCardInteraction

    A shallow embedding of the two React Native components of the
    repository.  A component is a function from its properties (and from the
    values its hooks return: theme colours, the translation function) to a
    view tree; optional properties are [option]s, callbacks are state
    transformers over an arbitrary world type. *)

From Stdlib Require Import ZArith List String Ascii Bool Lia.
From Stdlib Require Import Numbers.DecimalString.
From Stdlib Require Numbers.DecimalFacts Numbers.DecimalPos Numbers.DecimalN
  Numbers.DecimalZ.
Import ListNotations.

Set Warnings "-register-all".

Open Scope Z_scope.
Open Scope string_scope.

(** ** JavaScript values that reach the view tree *)

Module Js.

(** [Number.MAX_SAFE_INTEGER], 2^53 - 1: up to it every integer is a
    number of its own. *)
Definition MAX_SAFE_INTEGER : Z := 9007199254740991.

(** [String(n)] for an integer-valued number, as a template literal or a
    text child prints it: plain decimal digits, a leading minus sign.  This
    is what JavaScript prints for the integers between [-MAX_SAFE_INTEGER]
    and [MAX_SAFE_INTEGER]; above, JavaScript prints the shortest digits
    that read back as the same number, and from 1e21 on an exponent, which
    this function does not follow.  Statements about the digits of a count
    are made for counts up to [MAX_SAFE_INTEGER]. *)
Definition Number_toString (n : Z) : string :=
  NilZero.string_of_int (Z.to_int n).

(** An interpolated expression of type [number | string]. *)
Inductive Interp : Type :=
  | INum (n : Z)
  | IStr (s : string).

Definition toString (v : Interp) : string :=
  match v with
  | INum n => Number_toString n
  | IStr s => s
  end.

(** The text a list of interpolated children displays. *)
Fixpoint joinText (vs : list Interp) : string :=
  match vs with
  | [] => ""
  | v :: rest => toString v ++ joinText rest
  end.

(** Reading decimal digits, written without reference to the printer: the
    value of a character as a digit, *)
Definition digitOf (c : ascii) : option Z :=
  let k := Z.of_N (N_of_ascii c) - 48 in
  if (0 <=? k)%Z && (k <=? 9)%Z then Some k else None.

(** the value of a run of digits read after [acc], *)
Fixpoint readDigits (acc : Z) (s : string) : option Z :=
  match s with
  | EmptyString => Some acc
  | String c rest =>
      match digitOf c with
      | Some d => readDigits (10 * acc + d) rest
      | None => None
      end
  end.

(** and the value of a non-empty string of digits. *)
Definition readDecimal (s : string) : option Z :=
  match s with
  | EmptyString => None
  | _ => readDigits 0 s
  end.

Definition startsWithZero (s : string) : bool :=
  match s with
  | String c _ => Ascii.eqb c "0"
  | EmptyString => false
  end.

(** Last character of a string, when it has one. *)
Fixpoint lastChar (s : string) : option ascii :=
  match s with
  | EmptyString => None
  | String c EmptyString => Some c
  | String _ rest => lastChar rest
  end.

(** [s] ends with [suf]. *)
Definition EndsWith (s suf : string) : Prop :=
  exists pre, s = pre ++ suf.

End Js.

(** ** Theme constants (imported from [@/config/theme], not part of the
    two components) and the values returned by the hooks *)

Module Theme.

Record Colors : Type := mkColors {
  primary : string;
  textSecondary : string;
  divider : string
}.

Record Spacing : Type := mkSpacing {
  spacing_xxs : Z;
  spacing_xs : Z;
  spacing_s : Z;
  spacing_m : Z;
  spacing_l : Z
}.

Record Typography : Type := mkTypography {
  fontSize_s : Z;
  fontWeight_medium : string
}.

End Theme.

(** ** Style properties *)

Module Style.

Inductive Value : Type :=
  | SNum (n : Z)
  | SStr (s : string)
  | SHairlineWidth
  | STransform (ops : list (string * string)).

(** A style object: its keys in the order they are written. *)
Definition Object : Type := list (string * Value).

(** What a [style] attribute can hold: an object, a falsy value (the
    result of [cond && {...}] when [cond] is false) or an array. *)
Inductive Prop_ : Type :=
  | SObj (o : Object)
  | SFalse
  | SArr (l : list Prop_).

(** [cond && obj] in a style array. *)
Definition and_ (cond : bool) (o : Object) : Prop_ :=
  if cond then SObj o else SFalse.

(** Flattening of a style attribute, as the host resolves it: falsy
    entries vanish, arrays are concatenated in order. *)
Fixpoint flatten (s : Prop_) : Object :=
  match s with
  | SObj o => o
  | SFalse => []
  | SArr l => flat_map flatten l
  end.

(** Value of a key in a flattened style: the last binding wins. *)
Fixpoint lookupLast (k : string) (o : Object) : option Value :=
  match o with
  | [] => None
  | (k', v) :: rest =>
      match lookupLast k rest with
      | Some v' => Some v'
      | None => if String.eqb k' k then Some v else None
      end
  end.

Definition get (s : Prop_) (k : string) : option Value :=
  lookupLast k (flatten s).

End Style.

(** ** View trees *)

Module Tree.

Record A11y : Type := mkA11y {
  accessible : bool;
  accessibilityRole : string;
  accessibilityLabel : string;
  (* [accessibilityState={{ selected: b }}], when the attribute is given *)
  accessibilityState : option bool
}.

Section Elements.

(** The world the callbacks act on. *)
Variable W : Type.

Inductive Element : Type :=
  | View (style : option Style.Prop_) (a11y : option A11y)
       (children : list Element)
  | TouchableOpacity (style : Style.Prop_) (onPress : option (W -> W))
       (a11y : A11y) (children : list Element)
  | Ionicons (name : string) (size : Z) (color : string)
       (style : option Style.Prop_)
  | MaterialCommunityIcons (name : string) (size : Z) (color : string)
  | Text (style : Style.Prop_) (children : list Js.Interp).

(** [{cond && <E/>}]: a false condition leaves [false] among the
    children, which is not rendered. *)
Definition jsxAnd (cond : bool) (e : Element) : list Element :=
  if cond then [e] else [].

Definition a11yOf (e : Element) : option A11y :=
  match e with
  | View _ a _ => a
  | TouchableOpacity _ _ a _ => Some a
  | _ => None
  end.

Definition labelOf (e : Element) : option string :=
  option_map accessibilityLabel (a11yOf e).

Definition selectedOf (e : Element) : option bool :=
  match a11yOf e with
  | Some a => accessibilityState a
  | None => None
  end.

Definition onPressOf (e : Element) : option (W -> W) :=
  match e with
  | TouchableOpacity _ h _ _ => h
  | _ => None
  end.

Definition childrenOf (e : Element) : list Element :=
  match e with
  | View _ _ cs => cs
  | TouchableOpacity _ _ _ cs => cs
  | _ => []
  end.

Definition styleOf (e : Element) : option Style.Prop_ :=
  match e with
  | View s _ _ => s
  | TouchableOpacity s _ _ _ => Some s
  | Ionicons _ _ _ s => s
  | MaterialCommunityIcons _ _ _ => None
  | Text s _ => Some s
  end.

(** Resolved value of a style key of an element. *)
Definition styleKey (e : Element) (k : string) : option Style.Value :=
  match styleOf e with
  | Some s => Style.get s k
  | None => None
  end.

Definition glyphOf (e : Element) : option string :=
  match e with
  | Ionicons n _ _ _ => Some n
  | MaterialCommunityIcons n _ _ => Some n
  | _ => None
  end.

Definition colorOf (e : Element) : option string :=
  match e with
  | Ionicons _ _ c _ => Some c
  | MaterialCommunityIcons _ _ c => Some c
  | _ => None
  end.

Definition isIcon (e : Element) : bool :=
  match glyphOf e with Some _ => true | None => false end.

Definition isText (e : Element) : bool :=
  match e with Text _ _ => true | _ => false end.

(** The icon and the text element directly inside a control. *)
Definition iconIn (e : Element) : option Element :=
  find isIcon (childrenOf e).

Definition textIn (e : Element) : option Element :=
  find isText (childrenOf e).

(** The string a text element displays. *)
Definition displayed (e : Element) : option string :=
  match e with
  | Text _ cs => Some (Js.joinText cs)
  | _ => None
  end.

(** All touchable controls of a tree, in document order. *)
Fixpoint touchables (e : Element) : list Element :=
  match e with
  | View _ _ cs => flat_map touchables cs
  | TouchableOpacity _ _ _ _ => [e]
  | _ => []
  end.

(** All glyph names of a tree, in document order. *)
Fixpoint glyphs (e : Element) : list string :=
  match e with
  | View _ _ cs => flat_map glyphs cs
  | TouchableOpacity _ _ _ cs => flat_map glyphs cs
  | Ionicons n _ _ _ => [n]
  | MaterialCommunityIcons n _ _ => [n]
  | Text _ _ => []
  end.

(** Glyph and colour of the icon of a control, colour and displayed string
    of its text. *)
Definition iconGlyph (e : Element) : option string :=
  match iconIn e with Some i => glyphOf i | None => None end.

Definition iconColor (e : Element) : option string :=
  match iconIn e with Some i => colorOf i | None => None end.

Definition textColor (e : Element) : option Style.Value :=
  match textIn e with Some x => styleKey x "color" | None => None end.

Definition textShown (e : Element) : option string :=
  match textIn e with Some x => displayed x | None => None end.

(** Modelled from the spec: the touch dispatch of the host's touchable
    (an external collaborator, absent from the sources).  "Tapping
    invokes the callback if present; otherwise the tap is a no-op": a
    tap on a touchable runs its [onPress] handler once, synchronously,
    when there is one.  Elements that are not touchables take no tap. *)
Definition press (e : Element) (w : W) : option W :=
  match e with
  | TouchableOpacity _ h _ _ =>
      Some (match h with Some f => f w | None => w end)
  | _ => None
  end.

End Elements.

Arguments View {W} style a11y children.
Arguments TouchableOpacity {W} style onPress a11y children.
Arguments Ionicons {W} name size color style.
Arguments MaterialCommunityIcons {W} name size color.
Arguments Text {W} style children.
Arguments jsxAnd {W} cond e.
Arguments a11yOf {W} e.
Arguments labelOf {W} e.
Arguments selectedOf {W} e.
Arguments onPressOf {W} e.
Arguments childrenOf {W} e.
Arguments styleOf {W} e.
Arguments styleKey {W} e k.
Arguments glyphOf {W} e.
Arguments colorOf {W} e.
Arguments isIcon {W} e.
Arguments isText {W} e.
Arguments iconIn {W} e.
Arguments textIn {W} e.
Arguments displayed {W} e.
Arguments touchables {W} e.
Arguments glyphs {W} e.
Arguments iconGlyph {W} e.
Arguments iconColor {W} e.
Arguments textColor {W} e.
Arguments textShown {W} e.
Arguments press {W} e w.

End Tree.

(** ** BottomTabIcon *)

Module BottomTabIcon.

Import Tree.

(** [name] is declared as ['home' | 'folder' | 'chat' | 'ai']: a string
    at run time. *)
Record BottomTabIconProps : Type := mkProps {
  name : string;
  color : string;
  size : option Z;
  style : option Style.Prop_
}.

(** The [switch] compares [name] with each case label in turn. *)
Definition getIconName (name : string) : string :=
  if String.eqb name "home" then "home"
  else if String.eqb name "folder" then "folder"
  else if String.eqb name "chat" then "chatbubble"
  else if String.eqb name "ai" then "hardware-chip"
  else "help-circle".

Section Component.

Variable W : Type.
(** [ui.icon.large], the default size. *)
Variable ui_icon_large : Z.

Definition BottomTabIcon (props : BottomTabIconProps) : Element W :=
  let size := match size props with Some n => n | None => ui_icon_large end in
  let iconName := getIconName (name props) in
  View (style props)
       (Some (mkA11y true "image" (name props) None))
       [Ionicons iconName size (color props) None].

End Component.

Arguments BottomTabIcon {W} ui_icon_large props.

End BottomTabIcon.

(** ** NuggetCardInteraction *)

Module NuggetCardInteraction.

Import Tree.

Section Component.

(** The world the callbacks act on. *)
Variable W : Type.

Record NuggetCardInteractionProps : Type := mkProps {
  helpfulCount : Z;
  commentCount : Z;
  isHelpful : bool;
  isSaved : bool;
  onHelpfulPress : option (W -> W);
  onCommentPress : option (W -> W);
  onSharePress : option (W -> W);
  onSavePress : option (W -> W);
  hideCommentButton : option bool
}.

(** [useThemeColor()] and the [t] of [useTranslation()]. *)
Variable colors : Theme.Colors.
Variable t : string -> string.
(** [spacing] and [typography] of the theme. *)
Variable spacing : Theme.Spacing.
Variable typography : Theme.Typography.

(** *** [StyleSheet.create] *)

Definition styles_container : Style.Object :=
  [ ("flexDirection", Style.SStr "row");
    ("paddingHorizontal", Style.SNum (Theme.spacing_m spacing));
    ("paddingVertical", Style.SNum (Theme.spacing_s spacing));
    ("borderTopWidth", Style.SHairlineWidth);
    ("alignItems", Style.SStr "center");
    ("justifyContent", Style.SStr "space-between") ].

Definition styles_leftButtonsContainer : Style.Object :=
  [ ("flexDirection", Style.SStr "row");
    ("alignItems", Style.SStr "center") ].

Definition styles_rightButtonsContainer : Style.Object :=
  [ ("flexDirection", Style.SStr "row");
    ("alignItems", Style.SStr "center") ].

Definition styles_actionButton : Style.Object :=
  [ ("flexDirection", Style.SStr "row");
    ("alignItems", Style.SStr "center");
    ("paddingVertical", Style.SNum (Theme.spacing_xs spacing));
    ("marginLeft", Style.SNum (Theme.spacing_m spacing)) ].

Definition styles_iconWithCountButton : Style.Object :=
  [ ("flexDirection", Style.SStr "row");
    ("alignItems", Style.SStr "center");
    ("paddingVertical", Style.SNum (Theme.spacing_xs spacing)) ].

Definition styles_iconOnlyButton : Style.Object :=
  [ ("padding", Style.SNum (Theme.spacing_xs spacing));
    ("justifyContent", Style.SStr "center");
    ("alignItems", Style.SStr "center");
    ("marginLeft", Style.SNum (Theme.spacing_l spacing)) ].

Definition styles_actionText : Style.Object :=
  [ ("fontSize", Style.SNum (Theme.fontSize_s typography));
    ("marginLeft", Style.SNum (Theme.spacing_xs spacing));
    ("fontWeight", Style.SStr (Theme.fontWeight_medium typography)) ].

Definition styles_countText : Style.Object :=
  [ ("fontSize", Style.SNum (Theme.fontSize_s typography));
    ("marginLeft", Style.SNum (Theme.spacing_xxs spacing));
    ("fontWeight", Style.SStr (Theme.fontWeight_medium typography)) ].

(** *** The four controls, as the JSX writes them *)

(** The destructuring default [hideCommentButton = false]. *)
Definition hidden (props : NuggetCardInteractionProps) : bool :=
  match hideCommentButton props with
  | Some b => b
  | None => false
  end.

Definition commentButton (props : NuggetCardInteractionProps) : Element W :=
  let commentCount := commentCount props in
  TouchableOpacity
    (Style.SObj styles_iconWithCountButton)
    (onCommentPress props)
    (mkA11y true "button"
       (Js.toString (if (commentCount >? 0)%Z then Js.INum commentCount
                     else Js.IStr (t "nugget.interaction.noComments"))
        ++ " " ++ t "nugget.interaction.comments")
       None)
    [ Ionicons "chatbubble-outline" 20 (Theme.textSecondary colors) None;
      Text (Style.SArr [ Style.SObj styles_countText;
                         Style.SObj [("color", Style.SStr (Theme.textSecondary colors))] ])
           [ if (commentCount >? 0)%Z then Js.INum commentCount else Js.IStr "" ] ].

Definition helpfulButton (props : NuggetCardInteractionProps) : Element W :=
  let helpfulCount := helpfulCount props in
  let isHelpful := isHelpful props in
  TouchableOpacity
    (Style.SArr [ Style.SObj styles_actionButton;
                  Style.and_ (hidden props) [("marginLeft", Style.SNum 0)] ])
    (onHelpfulPress props)
    (mkA11y true "button"
       (if isHelpful then t "nugget.interaction.helpful"
        else t "nugget.interaction.markHelpful")
       (Some isHelpful))
    [ MaterialCommunityIcons
        (if isHelpful then "thumb-up" else "thumb-up-outline")
        20
        (if isHelpful then Theme.primary colors else Theme.textSecondary colors);
      Text (Style.SArr [ Style.SObj styles_actionText;
                         Style.SObj [("color", Style.SStr
                           (if isHelpful then Theme.primary colors
                            else Theme.textSecondary colors))] ])
           [ Js.IStr (t "nugget.interaction.thatHelps");
             Js.IStr " ";
             Js.IStr (if (helpfulCount >? 0)%Z
                      then "(" ++ Js.Number_toString helpfulCount ++ ")"
                      else "") ] ].

Definition shareButton (props : NuggetCardInteractionProps) : Element W :=
  TouchableOpacity
    (Style.SObj styles_iconOnlyButton)
    (onSharePress props)
    (mkA11y true "button" (t "nugget.interaction.share") None)
    [ Ionicons "paper-plane-outline" 20 (Theme.textSecondary colors)
        (Some (Style.SObj
           [("transform", Style.STransform [("rotate", "20deg")])])) ].

Definition saveButton (props : NuggetCardInteractionProps) : Element W :=
  let isSaved := isSaved props in
  TouchableOpacity
    (Style.SObj styles_iconOnlyButton)
    (onSavePress props)
    (mkA11y true "button"
       (if isSaved then t "profile.nuggetSaved" else t "nugget.interaction.save")
       (Some isSaved))
    [ Ionicons (if isSaved then "bookmark" else "bookmark-outline")
        20
        (if isSaved then Theme.primary colors else Theme.textSecondary colors)
        None ].

(** *** The component *)

Definition NuggetCardInteraction (props : NuggetCardInteractionProps) : Element W :=
  View (Some (Style.SArr [ Style.SObj styles_container;
                           Style.SObj [("borderTopColor", Style.SStr (Theme.divider colors))] ]))
       None
    [ View (Some (Style.SObj styles_leftButtonsContainer)) None
        (jsxAnd (negb (hidden props)) (commentButton props)
         ++ [ helpfulButton props ])%list;
      View (Some (Style.SObj styles_rightButtonsContainer)) None
        [ shareButton props; saveButton props ] ].

(** *** Finding a control in a rendered tree *)

Inductive Control : Type := Comment | Helpful | Share | Save.

(** The callback property that belongs to a control. *)
Definition callbackOf (props : NuggetCardInteractionProps) (c : Control)
  : option (W -> W) :=
  match c with
  | Comment => onCommentPress props
  | Helpful => onHelpfulPress props
  | Share => onSharePress props
  | Save => onSavePress props
  end.

(** The glyphs by which a control is recognised on screen. *)
Definition controlGlyphs (c : Control) : list string :=
  match c with
  | Comment => ["chatbubble-outline"]
  | Helpful => ["thumb-up"; "thumb-up-outline"]
  | Share => ["paper-plane-outline"]
  | Save => ["bookmark"; "bookmark-outline"]
  end.

Definition showsGlyph (gs : list string) (e : Element W) : bool :=
  match iconIn e with
  | Some i =>
      match glyphOf i with
      | Some g => existsb (String.eqb g) gs
      | None => false
      end
  | None => false
  end.

(** The first touchable of the tree, in document order, that shows one of
    the control's glyphs. *)
Definition findControl (c : Control) (tree : Element W) : option (Element W) :=
  find (showsGlyph (controlGlyphs c)) (touchables tree).

(** A tap on a control of a rendered tree: [None] when the tree has no such
    control to tap, otherwise the world after the tap. *)
Definition tap (c : Control) (tree : Element W) (w : W) : option W :=
  match findControl c tree with
  | Some e => press e w
  | None => None
  end.

Definition isRendered (c : Control) (tree : Element W) : bool :=
  match findControl c tree with Some _ => true | None => false end.

(** The same properties with every callback omitted. *)
Definition withoutCallbacks (props : NuggetCardInteractionProps)
  : NuggetCardInteractionProps :=
  mkProps (helpfulCount props) (commentCount props) (isHelpful props)
          (isSaved props) None None None None (hideCommentButton props).

(** The same properties with [hideCommentButton] set or omitted. *)
Definition withHide (h : option bool) (props : NuggetCardInteractionProps)
  : NuggetCardInteractionProps :=
  mkProps (helpfulCount props) (commentCount props) (isHelpful props)
          (isSaved props) (onHelpfulPress props) (onCommentPress props)
          (onSharePress props) (onSavePress props) h.

(** The same properties with other counts. *)
Definition withCounts (h c : Z) (props : NuggetCardInteractionProps)
  : NuggetCardInteractionProps :=
  mkProps h c (isHelpful props)
          (isSaved props) (onHelpfulPress props) (onCommentPress props)
          (onSharePress props) (onSavePress props) (hideCommentButton props).

End Component.

Arguments mkProps {W}.
Arguments helpfulCount {W} _.
Arguments commentCount {W} _.
Arguments isHelpful {W} _.
Arguments isSaved {W} _.
Arguments onHelpfulPress {W} _.
Arguments onCommentPress {W} _.
Arguments onSharePress {W} _.
Arguments onSavePress {W} _.
Arguments hideCommentButton {W} _.
Arguments hidden {W} props.
Arguments commentButton {W} colors t spacing typography props.
Arguments helpfulButton {W} colors t spacing typography props.
Arguments shareButton {W} colors t spacing props.
Arguments saveButton {W} colors t spacing props.
Arguments NuggetCardInteraction {W} colors t spacing typography props.
Arguments callbackOf {W} props c.
Arguments showsGlyph {W} gs e.
Arguments findControl {W} c tree.
Arguments tap {W} c tree w.
Arguments isRendered {W} c tree.
Arguments withoutCallbacks {W} props.
Arguments withHide {W} h props.
Arguments withCounts {W} h c props.

End NuggetCardInteraction.

(** ** A concrete environment and concrete properties *)

Module Sample.

Import NuggetCardInteraction.

Definition colors : Theme.Colors :=
  Theme.mkColors "#0A84FF" "#8E8E93" "#E5E5EA".

Definition spacing : Theme.Spacing := Theme.mkSpacing 2 4 8 16 24.

Definition typography : Theme.Typography := Theme.mkTypography 14 "500".

(** A translation table for the keys the component asks for. *)
Definition t (key : string) : string :=
  if String.eqb key "nugget.interaction.noComments" then "No"
  else if String.eqb key "nugget.interaction.comments" then "comments"
  else if String.eqb key "nugget.interaction.helpful" then "Marked as helpful"
  else if String.eqb key "nugget.interaction.markHelpful" then "Mark as helpful"
  else if String.eqb key "nugget.interaction.thatHelps" then "That helps"
  else if String.eqb key "nugget.interaction.share" then "Share"
  else if String.eqb key "profile.nuggetSaved" then "Already saved"
  else if String.eqb key "nugget.interaction.save" then "Save"
  else key.

(** The world of the sample callbacks: the log of the callbacks run so far,
    latest first. *)
Definition Log : Type := list string.

Definition note (who : string) : Log -> Log := cons who.

Definition render : NuggetCardInteractionProps Log -> Tree.Element Log :=
  NuggetCardInteraction colors t spacing typography.

(** Marked and saved, with counts and all four callbacks. *)
Definition active : NuggetCardInteractionProps Log :=
  mkProps 3 5 true true
          (Some (note "helpful")) (Some (note "comment"))
          (Some (note "share")) (Some (note "save")) None.

(** Unmarked and unsaved, zero counts, no callback. *)
Definition idle : NuggetCardInteractionProps Log :=
  mkProps 0 0 false false None None None None (Some false).

(** The comment control hidden. *)
Definition compact : NuggetCardInteractionProps Log :=
  mkProps 0 0 false false None None None None (Some true).

(** Counts below zero, as only untyped callers can pass them. *)
Definition negative : NuggetCardInteractionProps Log :=
  mkProps (-2) (-7) false false None None None None None.

End Sample.


(** ** Further observations on view trees *)

Module Inspect.

Import Tree NuggetCardInteraction.

(** The tab kinds [BottomTabIconProps] declares, and the glyphs the two
    components ask the icon fonts for. *)
Definition tabKinds : list string := ["home"; "folder"; "chat"; "ai"].

Definition tabGlyphs : list string :=
  ["home"; "folder"; "chatbubble"; "hardware-chip"; "help-circle"].

Definition interactionGlyphs : list string :=
  ["chatbubble-outline"; "thumb-up"; "thumb-up-outline";
   "paper-plane-outline"; "bookmark"; "bookmark-outline"].

(** Keys of a style object. *)
Definition keys (o : Style.Object) : list string := map fst o.

Section Trees.

Variable W : Type.

(** Sizes of all icons of a tree, in document order. *)
Fixpoint iconSizes (e : Element W) : list Z :=
  match e with
  | View _ _ cs => flat_map iconSizes cs
  | TouchableOpacity _ _ _ cs => flat_map iconSizes cs
  | Ionicons _ n _ _ => [n]
  | MaterialCommunityIcons _ n _ => [n]
  | Text _ _ => []
  end.

(** What a tree shows: the tree with every [onPress] handler taken off. *)
Fixpoint appearance (e : Element W) : Element unit :=
  match e with
  | View s a cs => View s a (map appearance cs)
  | TouchableOpacity s _ a cs => TouchableOpacity s None a (map appearance cs)
  | Ionicons n z c s => Ionicons n z c s
  | MaterialCommunityIcons n z c => MaterialCommunityIcons n z c
  | Text s cs => Text s cs
  end.

(** How many touchables of a tree show one of a control's glyphs. *)
Definition occurrences (c : Control) (tree : Element W) : nat :=
  List.length (filter (showsGlyph (controlGlyphs c)) (touchables tree)).

(** An accessible element with the role of a button. *)
Definition isButton (e : Element W) : bool :=
  match a11yOf e with
  | Some a => accessible a && String.eqb (accessibilityRole a) "button"
  | None => false
  end.

End Trees.

Arguments iconSizes {W} e.
Arguments appearance {W} e.
Arguments occurrences {W} c tree.
Arguments isButton {W} e.

End Inspect.


(** * Properties *)

(** ** Strings *)

Module JsFacts.

Import Js.

Lemma lastChar_cons (c : ascii) (s : string) :
  s <> "" -> lastChar (String c s) = lastChar s.
Proof.
  destruct s as [|d s']; [intros H; now elim H | reflexivity].
Qed.

Lemma lastChar_app (a b : string) :
  b <> "" -> lastChar (a ++ b) = lastChar b.
Proof.
  intros Hb. induction a as [|c a IH]; simpl append.
  - reflexivity.
  - rewrite lastChar_cons; [exact IH|].
    destruct a; simpl; [exact Hb | discriminate].
Qed.

Lemma app_assoc (a b c : string) : (a ++ b) ++ c = a ++ (b ++ c).
Proof.
  induction a as [|x a IH]; simpl; [reflexivity | now rewrite IH].
Qed.

Lemma app_nil_r (a : string) : a ++ "" = a.
Proof.
  induction a as [|x a IH]; simpl; [reflexivity | now rewrite IH].
Qed.

Lemma lastChar_snoc (a : string) (c : ascii) :
  lastChar (a ++ String c "") = Some c.
Proof.
  rewrite lastChar_app; [reflexivity | discriminate].
Qed.

(** A string that ends with a space does not end with a closing
    parenthesis. *)
Lemma space_not_paren (a b : string) : a ++ " " <> b ++ ")".
Proof.
  intros H. apply (f_equal lastChar) in H.
  rewrite !lastChar_snoc in H. discriminate H.
Qed.

Lemma gtb_pos (n : Z) : 0 < n -> (n >? 0) = true.
Proof. intros H. apply Z.gtb_lt. exact H. Qed.

Lemma gtb_nonpos (n : Z) : n <= 0 -> (n >? 0) = false.
Proof.
  intros H. destruct (n >? 0) eqn:E; [|reflexivity].
  apply Z.gtb_lt in E. lia.
Qed.

(** A string that ends with a space has no ending that closes a
    parenthesis. *)
Lemma not_EndsWith_paren (a x : string) : ~ EndsWith (a ++ " ") (x ++ ")").
Proof.
  intros [pre H]. rewrite <- app_assoc in H.
  exact (space_not_paren a (pre ++ x) H).
Qed.

(** *** The printed digits read back as the number *)

Lemma readDigits_after_pos (d : Decimal.uint) (acc : positive) :
  readDigits (Z.pos acc) (NilEmpty.string_of_uint d)
  = Some (Z.pos (Pos.of_uint_acc d acc)).
Proof.
  revert acc.
  induction d as [|d IH|d IH|d IH|d IH|d IH|d IH|d IH|d IH|d IH|d IH];
    intros acc; cbn [NilEmpty.string_of_uint Pos.of_uint_acc];
    [reflexivity|..]; cbn [readDigits];
    match goal with
    | |- context [digitOf ?c] =>
        let v := eval vm_compute in (digitOf c) in
        change (digitOf c) with v; cbv iota
    end;
    rewrite <- IH; f_equal; lia.
Qed.

Lemma readDigits_from_zero (d : Decimal.uint) :
  readDigits 0 (NilEmpty.string_of_uint d) = Some (Z.of_N (Pos.of_uint d)).
Proof.
  induction d as [|d IH|d IH|d IH|d IH|d IH|d IH|d IH|d IH|d IH|d IH];
    cbn [NilEmpty.string_of_uint Pos.of_uint]; [reflexivity|..];
    cbn [readDigits];
    match goal with
    | |- context [digitOf ?c] =>
        let v := eval vm_compute in (digitOf c) in
        change (digitOf c) with v; cbv iota
    end;
    [exact IH | apply readDigits_after_pos ..].
Qed.

Lemma Number_toString_pos (q : positive) :
  Number_toString (Z.pos q) = NilEmpty.string_of_uint (Pos.to_uint q).
Proof.
  unfold Number_toString. cbn [Z.to_int NilZero.string_of_int].
  unfold NilZero.string_of_uint.
  destruct (Pos.to_uint q) eqn:E; try reflexivity.
  now apply DecimalPos.Unsigned.to_uint_nonnil in E.
Qed.

Lemma to_uint_head (q : positive) (d : Decimal.uint) :
  Pos.to_uint q <> Decimal.D0 d.
Proof.
  intros E.
  assert (Hn : Decimal.unorm (Pos.to_uint q) = Pos.to_uint q).
  { rewrite <- (DecimalN.Unsigned.to_of (Pos.to_uint q)).
    unfold N.of_uint. now rewrite DecimalPos.Unsigned.of_to. }
  rewrite E in Hn. unfold Decimal.unorm in Hn.
  change (Decimal.nzhead (Decimal.D0 d)) with (Decimal.nzhead d) in Hn.
  destruct (Decimal.nzhead d) eqn:Hz; try discriminate Hn.
  - injection Hn as Hn. subst d.
    now apply (DecimalPos.Unsigned.to_uint_nonzero q).
  - exact (DecimalFacts.nzhead_nonzero d _ Hz).
Qed.

(** The printed form of a positive integer is a string of digits that
    reads back as the integer and does not start with a zero. *)
Lemma Number_toString_digits (n : Z) :
  0 < n ->
  readDecimal (Number_toString n) = Some n /\
  startsWithZero (Number_toString n) = false.
Proof.
  destruct n as [|q|q]; intros Hn; try lia.
  rewrite Number_toString_pos.
  pose proof (readDigits_from_zero (Pos.to_uint q)) as Hr.
  rewrite DecimalPos.Unsigned.of_to in Hr.
  pose proof (to_uint_head q) as Hh.
  pose proof (DecimalPos.Unsigned.to_uint_nonnil q) as Hnil.
  destruct (Pos.to_uint q) as [|d|d|d|d|d|d|d|d|d|d];
    [now elim Hnil | now elim (Hh d) | ..];
    (split; [exact Hr | reflexivity]).
Qed.

End JsFacts.

(** ** BottomTabIcon *)

Module BottomTabIconSpec.

Import Tree BottomTabIcon.

Lemma getIconName_default (name : string) :
  name <> "home" -> name <> "folder" -> name <> "chat" -> name <> "ai" ->
  getIconName name = "help-circle".
Proof.
  intros H1 H2 H3 H4. unfold getIconName.
  apply String.eqb_neq in H1, H2, H3, H4.
  now rewrite H1, H2, H3, H4.
Qed.

(** C1: [getIconName] is a total function with a fixed result for every
    input: 'home' gives 'home', 'folder' gives 'folder', 'chat' gives
    'chatbubble', 'ai' gives 'hardware-chip', every other input gives the
    fallback 'help-circle', and equal inputs give equal outputs. *)
Theorem getIconName_total_table :
  getIconName "home" = "home" /\
  getIconName "folder" = "folder" /\
  getIconName "chat" = "chatbubble" /\
  getIconName "ai" = "hardware-chip" /\
  (forall name : string,
      name <> "home" -> name <> "folder" -> name <> "chat" -> name <> "ai" ->
      getIconName name = "help-circle") /\
  (forall a b : string, a = b -> getIconName a = getIconName b).
Proof.
  repeat split; try reflexivity.
  - exact getIconName_default.
  - intros a b E. now rewrite E.
Qed.

Lemma getIconName_total_table_witness :
  getIconName "settings" = "help-circle" /\
  getIconName "Home" = "help-circle" /\
  getIconName "" = "help-circle" /\
  getIconName "chat" = getIconName "chat".
Proof.
  destruct getIconName_total_table as (_ & _ & _ & _ & Hdef & Hpure).
  split; [|split; [|split]].
  - apply Hdef; apply String.eqb_neq; reflexivity.
  - apply Hdef; apply String.eqb_neq; reflexivity.
  - apply Hdef; apply String.eqb_neq; reflexivity.
  - apply Hpure; reflexivity.
Defined.

(** C7: the accessibility label of the rendered tab icon view is the tab
    kind that was passed in, whatever glyph was resolved; it is not taken
    from the resolved glyph (for 'chat' and 'ai' the two differ). *)
Theorem BottomTabIcon_label_is_name :
  forall (W : Type) (large : Z) (props : BottomTabIconProps),
    let view := BottomTabIcon (W := W) large props in
    labelOf view = Some (name props) /\
    option_map accessibilityRole (a11yOf view) = Some "image" /\
    glyphs view = [getIconName (name props)] /\
    String.eqb "chat" (getIconName "chat") = false /\
    String.eqb "ai" (getIconName "ai") = false.
Proof.
  intros W large props view. repeat split.
Qed.

End BottomTabIconSpec.

(** ** NuggetCardInteraction *)

Module NuggetCardInteractionSpec.

Import Tree NuggetCardInteraction.

Section Rendering.

Variable W : Type.
Variable colors : Theme.Colors.
Variable t : string -> string.
Variable spacing : Theme.Spacing.
Variable typography : Theme.Typography.

#[local] Abbreviation Props := (NuggetCardInteractionProps W).
#[local] Abbreviation render :=
  (NuggetCardInteraction (W := W) colors t spacing typography).
#[local] Abbreviation commentB :=
  (commentButton (W := W) colors t spacing typography).
#[local] Abbreviation helpfulB :=
  (helpfulButton (W := W) colors t spacing typography).
#[local] Abbreviation shareB := (shareButton (W := W) colors t spacing).
#[local] Abbreviation saveB := (saveButton (W := W) colors t spacing).

(** Case analysis on the three flags the tree's shape depends on. *)
Ltac flags p :=
  unfold findControl, isRendered, tap, NuggetCardInteraction, hidden,
    helpfulButton, saveButton, commentButton, shareButton in *;
  destruct (hideCommentButton p) as [[|]|];
  destruct (isHelpful p); destruct (isSaved p).

(** *** Where each control sits in the rendered tree *)

Lemma touchables_render (p : Props) :
  touchables (render p)
  = List.app (if hidden p then [] else [commentB p])
             [helpfulB p; shareB p; saveB p].
Proof.
  unfold NuggetCardInteraction. destruct (hidden p); reflexivity.
Qed.

Lemma find_comment (p : Props) :
  findControl Comment (render p)
  = if hidden p then None else Some (commentB p).
Proof. flags p; reflexivity. Qed.

Lemma find_helpful (p : Props) :
  findControl Helpful (render p) = Some (helpfulB p).
Proof. flags p; reflexivity. Qed.

Lemma find_share (p : Props) :
  findControl Share (render p) = Some (shareB p).
Proof. flags p; reflexivity. Qed.

Lemma find_save (p : Props) :
  findControl Save (render p) = Some (saveB p).
Proof. flags p; reflexivity. Qed.

(** A control that is found is a touchable wired to its own callback. *)
Lemma find_onPress (p : Props) (c : Control) (e : Element W) :
  findControl c (render p) = Some e -> onPressOf e = callbackOf p c.
Proof.
  destruct c; [rewrite find_comment | rewrite find_helpful
              | rewrite find_share | rewrite find_save].
  - destruct (hidden p); [discriminate|]. intros [= <-]. reflexivity.
  - intros [= <-]. reflexivity.
  - intros [= <-]. reflexivity.
  - intros [= <-]. reflexivity.
Qed.

Lemma find_is_touchable (p : Props) (c : Control) (e : Element W) :
  findControl c (render p) = Some e ->
  forall w, press e w = Some (match onPressOf e with Some f => f w | None => w end).
Proof.
  destruct c; [rewrite find_comment | rewrite find_helpful
              | rewrite find_share | rewrite find_save].
  - destruct (hidden p); [discriminate|]. intros [= <-]. reflexivity.
  - intros [= <-]. reflexivity.
  - intros [= <-]. reflexivity.
  - intros [= <-]. reflexivity.
Qed.

Lemma hidden_withoutCallbacks (p : Props) :
  hidden (withoutCallbacks p) = hidden p.
Proof. reflexivity. Qed.

Lemma isRendered_spec (p : Props) (c : Control) :
  isRendered c (render p)
  = match c with Comment => negb (hidden p) | _ => true end.
Proof.
  unfold isRendered.
  destruct c; [rewrite find_comment | rewrite find_helpful
              | rewrite find_share | rewrite find_save]; try reflexivity.
  destruct (hidden p); reflexivity.
Qed.

(** What a tap on a control does, once the control is found. *)
Lemma tap_found (p : Props) (c : Control) (e : Element W) (w : W) :
  findControl c (render p) = Some e ->
  tap c (render p) w
  = Some (match callbackOf p c with Some f => f w | None => w end).
Proof.
  intros Hfind. unfold tap. rewrite Hfind.
  rewrite (find_is_touchable p c e Hfind).
  now rewrite (find_onPress p c e Hfind).
Qed.

Lemma isRendered_found (p : Props) (c : Control) :
  isRendered c (render p) = true ->
  exists e, findControl c (render p) = Some e.
Proof.
  unfold isRendered. destruct (findControl c (render p)) as [e|].
  - intros _. now exists e.
  - discriminate.
Qed.

Lemma callbackOf_withoutCallbacks (p : Props) (c : Control) :
  callbackOf (withoutCallbacks p) c = None.
Proof. destruct c; reflexivity. Qed.

(** *** Callbacks *)

(** C2: for each of the four controls that is rendered, a tap runs the
    control's own callback exactly once when the callback is supplied; when
    it is omitted the tap completes and leaves the world as it was; and
    omitting the callbacks does not remove the control. *)
Theorem tap_invokes_callback_once (p : Props) (c : Control) (w : W) :
  isRendered c (render p) = true ->
  (forall f, callbackOf p c = Some f -> tap c (render p) w = Some (f w)) /\
  (callbackOf p c = None -> tap c (render p) w = Some w) /\
  isRendered c (render (withoutCallbacks p)) = true /\
  tap c (render (withoutCallbacks p)) w = Some w.
Proof.
  intros Hr.
  assert (Hr' : isRendered c (render (withoutCallbacks p)) = true).
  { rewrite isRendered_spec in *. exact Hr. }
  destruct (isRendered_found p c Hr) as [e He].
  destruct (isRendered_found _ c Hr') as [e' He'].
  repeat split.
  - intros f Hf. rewrite (tap_found p c e w He), Hf. reflexivity.
  - intros Hn. rewrite (tap_found p c e w He), Hn. reflexivity.
  - exact Hr'.
  - rewrite (tap_found _ c e' w He'), callbackOf_withoutCallbacks.
    reflexivity.
Qed.

(** *** The two toggles *)

(** C3: the mark-helpful control shows the filled thumb, the primary
    colour, the 'helpful' label and selected-state true when [isHelpful] is
    true, and the outline thumb, the secondary colour, the 'markHelpful'
    label and selected-state false when it is false. *)
Theorem helpful_variants (p : Props) :
  findControl Helpful (render p) = Some (helpfulB p) /\
  (isHelpful p = true ->
     iconGlyph (helpfulB p) = Some "thumb-up" /\
     iconColor (helpfulB p) = Some (Theme.primary colors) /\
     textColor (helpfulB p) = Some (Style.SStr (Theme.primary colors)) /\
     labelOf (helpfulB p) = Some (t "nugget.interaction.helpful") /\
     selectedOf (helpfulB p) = Some true) /\
  (isHelpful p = false ->
     iconGlyph (helpfulB p) = Some "thumb-up-outline" /\
     iconColor (helpfulB p) = Some (Theme.textSecondary colors) /\
     textColor (helpfulB p) = Some (Style.SStr (Theme.textSecondary colors)) /\
     labelOf (helpfulB p) = Some (t "nugget.interaction.markHelpful") /\
     selectedOf (helpfulB p) = Some false).
Proof.
  split; [apply find_helpful|].
  unfold helpfulButton.
  split; intros ->; repeat split.
Qed.

(** C4: the save control shows the filled bookmark, the primary colour and
    the 'nuggetSaved' label when [isSaved] is true, the outline bookmark,
    the secondary colour and the 'save' label when it is false; its
    selected-state is [isSaved]. *)
Theorem save_variants (p : Props) :
  findControl Save (render p) = Some (saveB p) /\
  selectedOf (saveB p) = Some (isSaved p) /\
  (isSaved p = true ->
     iconGlyph (saveB p) = Some "bookmark" /\
     iconColor (saveB p) = Some (Theme.primary colors) /\
     labelOf (saveB p) = Some (t "profile.nuggetSaved")) /\
  (isSaved p = false ->
     iconGlyph (saveB p) = Some "bookmark-outline" /\
     iconColor (saveB p) = Some (Theme.textSecondary colors) /\
     labelOf (saveB p) = Some (t "nugget.interaction.save")).
Proof.
  split; [apply find_save|].
  split; [reflexivity|].
  unfold saveButton.
  split; intros ->; repeat split.
Qed.

(** *** The comment control and the leading margin *)

Lemma marginLeft_helpful (p : Props) :
  styleKey (helpfulB p) "marginLeft"
  = Some (Style.SNum (if hidden p then 0 else Theme.spacing_m spacing)).
Proof.
  unfold helpfulButton. destruct (hidden p); reflexivity.
Qed.

Lemma glyphs_render (p : Props) :
  glyphs (render p)
  = List.app (if hidden p then [] else ["chatbubble-outline"])
      [ if isHelpful p then "thumb-up" else "thumb-up-outline";
        "paper-plane-outline";
        if isSaved p then "bookmark" else "bookmark-outline" ].
Proof.
  unfold NuggetCardInteraction. destruct (hidden p); reflexivity.
Qed.

(** C5: with [hideCommentButton = true] the rendered tree has no comment
    control and the mark-helpful control's left margin is zero; with
    [hideCommentButton = false] the comment control is in the tree and the
    mark-helpful control keeps the margin of its style sheet entry. *)
Theorem hideCommentButton_effect (p : Props) :
  (hideCommentButton p = Some true ->
     findControl Comment (render p) = None /\
     touchables (render p) = [helpfulB p; shareB p; saveB p] /\
     ~ In "chatbubble-outline" (glyphs (render p)) /\
     findControl Helpful (render p) = Some (helpfulB p) /\
     styleKey (helpfulB p) "marginLeft" = Some (Style.SNum 0)) /\
  (hideCommentButton p = Some false ->
     findControl Comment (render p) = Some (commentB p) /\
     touchables (render p) = [commentB p; helpfulB p; shareB p; saveB p] /\
     findControl Helpful (render p) = Some (helpfulB p) /\
     styleKey (helpfulB p) "marginLeft"
     = Some (Style.SNum (Theme.spacing_m spacing))).
Proof.
  split; intros Hh.
  - assert (Hhid : hidden p = true) by (unfold hidden; now rewrite Hh).
    rewrite find_comment, touchables_render, glyphs_render,
      marginLeft_helpful, find_helpful, Hhid.
    repeat split.
    destruct (isHelpful p), (isSaved p);
      intros [H|[H|[H|[]]]]; discriminate H.
  - assert (Hhid : hidden p = false) by (unfold hidden; now rewrite Hh).
    rewrite find_comment, touchables_render, marginLeft_helpful,
      find_helpful, Hhid.
    repeat split.
Qed.


(** *** Counters *)

Lemma comment_text (p : Props) :
  textShown (commentB p)
  = Some (if commentCount p >? 0 then Js.Number_toString (commentCount p)
          else "").
Proof.
  unfold commentButton, textShown. cbn.
  destruct (commentCount p >? 0); cbn.
  - now rewrite JsFacts.app_nil_r.
  - reflexivity.
Qed.

Lemma comment_label (p : Props) :
  labelOf (commentB p)
  = Some ((if commentCount p >? 0 then Js.Number_toString (commentCount p)
           else t "nugget.interaction.noComments")
          ++ " " ++ t "nugget.interaction.comments").
Proof.
  unfold commentButton, labelOf. cbn.
  destruct (commentCount p >? 0); reflexivity.
Qed.

Lemma helpful_text (p : Props) :
  textShown (helpfulB p)
  = Some (t "nugget.interaction.thatHelps" ++ " "
          ++ (if helpfulCount p >? 0
              then "(" ++ Js.Number_toString (helpfulCount p) ++ ")"
              else "")).
Proof.
  unfold helpfulButton, textShown.
  cbn [textIn childrenOf find isText displayed Js.joinText Js.toString].
  now rewrite JsFacts.app_nil_r.
Qed.

(** C6: with the comment control rendered, a zero [commentCount] gives the
    empty count text and a label made of the 'noComments' phrase and the
    'comments' noun; a positive [commentCount] (a safe integer) gives as
    count text the decimal digits of the number, without a leading zero,
    and a label made of these digits and the 'comments' noun; 5 gives
    "5". *)
Theorem comment_count_display (p : Props) :
  hidden p = false ->
  findControl Comment (render p) = Some (commentB p) /\
  (commentCount p = 0 ->
     textShown (commentB p) = Some "" /\
     labelOf (commentB p)
     = Some (t "nugget.interaction.noComments" ++ " "
             ++ t "nugget.interaction.comments")) /\
  (0 < commentCount p -> commentCount p <= Js.MAX_SAFE_INTEGER ->
     exists digits : string,
       Js.readDecimal digits = Some (commentCount p) /\
       Js.startsWithZero digits = false /\
       textShown (commentB p) = Some digits /\
       labelOf (commentB p)
       = Some (digits ++ " " ++ t "nugget.interaction.comments")) /\
  (commentCount p = 5 ->
     textShown (commentB p) = Some "5" /\
     labelOf (commentB p)
     = Some ("5" ++ " " ++ t "nugget.interaction.comments")).
Proof.
  intros Hhid. rewrite find_comment, Hhid, comment_text, comment_label.
  split; [reflexivity|]. split; [|split].
  - intros ->. split; reflexivity.
  - intros Hpos _. rewrite JsFacts.gtb_pos by exact Hpos.
    destruct (JsFacts.Number_toString_digits _ Hpos) as [Hread Hzero].
    exists (Js.Number_toString (commentCount p)).
    split; [exact Hread|]. split; [exact Hzero|]. split; reflexivity.
  - intros ->. split; reflexivity.
Qed.

(** C8: the text of the mark-helpful control is the 'thatHelps' phrase,
    a space, and, when [helpfulCount > 0] (a safe integer), the decimal
    digits of the count in parentheses; with [helpfulCount = 0] nothing
    follows the space; the text ends with a closing parenthesis, and with
    the parenthesised count, exactly when [helpfulCount > 0]; 3 gives a
    text that ends with "(3)". *)
Theorem helpful_count_display (p : Props) :
  findControl Helpful (render p) = Some (helpfulB p) /\
  (0 < helpfulCount p -> helpfulCount p <= Js.MAX_SAFE_INTEGER ->
     exists digits : string,
       Js.readDecimal digits = Some (helpfulCount p) /\
       Js.startsWithZero digits = false /\
       textShown (helpfulB p)
       = Some (t "nugget.interaction.thatHelps" ++ " "
               ++ "(" ++ digits ++ ")")) /\
  (helpfulCount p = 0 ->
     textShown (helpfulB p) = Some (t "nugget.interaction.thatHelps" ++ " ")) /\
  (forall shown, textShown (helpfulB p) = Some shown ->
     (Js.EndsWith shown ")" <-> 0 < helpfulCount p)) /\
  (forall shown, textShown (helpfulB p) = Some shown ->
     helpfulCount p <= Js.MAX_SAFE_INTEGER ->
     ((exists digits : string,
          Js.readDecimal digits = Some (helpfulCount p) /\
          Js.EndsWith shown ("(" ++ digits ++ ")"))
      <-> 0 < helpfulCount p)) /\
  (helpfulCount p = 3 ->
     textShown (helpfulB p)
     = Some (t "nugget.interaction.thatHelps" ++ " " ++ "(3)")).
Proof.
  rewrite find_helpful, helpful_text.
  split; [reflexivity|]. split; [|split; [|split; [|split]]].
  - intros Hpos _. rewrite JsFacts.gtb_pos by exact Hpos.
    destruct (JsFacts.Number_toString_digits _ Hpos) as [Hread Hzero].
    exists (Js.Number_toString (helpfulCount p)).
    split; [exact Hread|]. split; [exact Hzero | reflexivity].
  - intros ->. reflexivity.
  - intros shown [= <-]. split.
    + intros Hends.
      destruct (helpfulCount p >? 0) eqn:E; [now apply Z.gtb_lt|].
      exfalso.
      exact (JsFacts.not_EndsWith_paren
               (t "nugget.interaction.thatHelps") "" Hends).
    + intros Hpos. rewrite JsFacts.gtb_pos by exact Hpos.
      exists (t "nugget.interaction.thatHelps" ++ " " ++ "("
              ++ Js.Number_toString (helpfulCount p)).
      now rewrite !JsFacts.app_assoc.
  - intros shown [= <-] _. split.
    + intros (digits & _ & Hends).
      destruct (helpfulCount p >? 0) eqn:E; [now apply Z.gtb_lt|].
      exfalso.
      exact (JsFacts.not_EndsWith_paren
               (t "nugget.interaction.thatHelps") ("(" ++ digits) Hends).
    + intros Hpos. rewrite JsFacts.gtb_pos by exact Hpos.
      exists (Js.Number_toString (helpfulCount p)).
      split; [now apply JsFacts.Number_toString_digits|].
      exists (t "nugget.interaction.thatHelps" ++ " ").
      now rewrite JsFacts.app_assoc.
  - intros ->. reflexivity.
Qed.

(** C10: both counters are tested with [> 0]: in the rendered tree, a
    [commentCount] at or below zero gives the comment control the empty
    count text and the 'noComments' label, a [helpfulCount] at or below
    zero gives the mark-helpful control no parenthesised count, and the
    whole tree is the one rendered for zero counts. *)
Theorem nonpositive_counts_render_as_zero (p : Props) :
  findControl Helpful (render p) = Some (helpfulB p) /\
  (hidden p = false ->
     findControl Comment (render p) = Some (commentB p)) /\
  (commentCount p <= 0 ->
     textShown (commentB p) = Some "" /\
     labelOf (commentB p)
     = Some (t "nugget.interaction.noComments" ++ " "
             ++ t "nugget.interaction.comments") /\
     render p = render (withCounts (helpfulCount p) 0 p)) /\
  (helpfulCount p <= 0 ->
     textShown (helpfulB p) = Some (t "nugget.interaction.thatHelps" ++ " ") /\
     render p = render (withCounts 0 (commentCount p) p)) /\
  (commentCount p <= 0 -> helpfulCount p <= 0 ->
     render p = render (withCounts 0 0 p)).
Proof.
  split; [apply find_helpful|].
  split; [intros Hhid; now rewrite find_comment, Hhid|].
  rewrite comment_text, comment_label, helpful_text.
  unfold NuggetCardInteraction, commentButton, helpfulButton, shareButton,
    saveButton, hidden, withCounts.
  cbn [helpfulCount commentCount isHelpful isSaved onHelpfulPress
       onCommentPress onSharePress onSavePress hideCommentButton].
  change (0 >? 0) with false.
  split; [|split].
  - intros Hc. rewrite (JsFacts.gtb_nonpos _ Hc). repeat split.
  - intros Hh. rewrite (JsFacts.gtb_nonpos _ Hh). repeat split.
  - intros Hc Hh.
    rewrite (JsFacts.gtb_nonpos _ Hc), (JsFacts.gtb_nonpos _ Hh).
    reflexivity.
Qed.

End Rendering.

(** *** The theorems at the sample properties *)

Lemma tap_invokes_callback_once_witness :
  tap Save (Sample.render Sample.active) [] = Some ["save"]%list /\
  tap Comment (Sample.render Sample.active) ["share"]%list
  = Some ["comment"; "share"]%list /\
  tap Helpful (Sample.render Sample.idle) [] = Some []%list /\
  tap Share (Sample.render (withoutCallbacks Sample.active)) [] = Some []%list.
Proof.
  split; [|split; [|split]].
  - apply (tap_invokes_callback_once Sample.Log Sample.colors Sample.t
             Sample.spacing Sample.typography Sample.active Save []);
      reflexivity.
  - apply (tap_invokes_callback_once Sample.Log Sample.colors Sample.t
             Sample.spacing Sample.typography Sample.active Comment
             ["share"]%list);
      reflexivity.
  - apply (tap_invokes_callback_once Sample.Log Sample.colors Sample.t
             Sample.spacing Sample.typography Sample.idle Helpful []);
      reflexivity.
  - apply (tap_invokes_callback_once Sample.Log Sample.colors Sample.t
             Sample.spacing Sample.typography Sample.active Share []);
      reflexivity.
Defined.

Lemma helpful_variants_witness :
  iconGlyph (helpfulButton (W := Sample.Log) Sample.colors Sample.t
               Sample.spacing Sample.typography Sample.active)
  = Some "thumb-up" /\
  labelOf (helpfulButton (W := Sample.Log) Sample.colors Sample.t
             Sample.spacing Sample.typography Sample.idle)
  = Some (Sample.t "nugget.interaction.markHelpful").
Proof.
  split.
  - apply (helpful_variants Sample.Log Sample.colors Sample.t Sample.spacing
             Sample.typography Sample.active); reflexivity.
  - apply (helpful_variants Sample.Log Sample.colors Sample.t Sample.spacing
             Sample.typography Sample.idle); reflexivity.
Defined.

Lemma save_variants_witness :
  iconGlyph (saveButton (W := Sample.Log) Sample.colors Sample.t
               Sample.spacing Sample.active)
  = Some "bookmark" /\
  labelOf (saveButton (W := Sample.Log) Sample.colors Sample.t
             Sample.spacing Sample.idle)
  = Some (Sample.t "nugget.interaction.save").
Proof.
  split.
  - apply (save_variants Sample.Log Sample.colors Sample.t Sample.spacing
             Sample.typography Sample.active); reflexivity.
  - apply (save_variants Sample.Log Sample.colors Sample.t Sample.spacing
             Sample.typography Sample.idle); reflexivity.
Defined.

Lemma hideCommentButton_effect_witness :
  findControl Comment (Sample.render Sample.compact) = None /\
  findControl Comment (Sample.render Sample.idle)
  = Some (commentButton Sample.colors Sample.t Sample.spacing
            Sample.typography Sample.idle).
Proof.
  split.
  - apply (hideCommentButton_effect Sample.Log Sample.colors Sample.t
             Sample.spacing Sample.typography Sample.compact); reflexivity.
  - apply (hideCommentButton_effect Sample.Log Sample.colors Sample.t
             Sample.spacing Sample.typography Sample.idle); reflexivity.
Defined.


Lemma comment_count_display_witness :
  (exists digits : string,
      Js.readDecimal digits = Some 5 /\
      Js.startsWithZero digits = false /\
      textShown (commentButton (W := Sample.Log) Sample.colors Sample.t
                   Sample.spacing Sample.typography Sample.active)
      = Some digits /\
      labelOf (commentButton (W := Sample.Log) Sample.colors Sample.t
                 Sample.spacing Sample.typography Sample.active)
      = Some (digits ++ " " ++ Sample.t "nugget.interaction.comments")) /\
  textShown (commentButton (W := Sample.Log) Sample.colors Sample.t
               Sample.spacing Sample.typography Sample.active)
  = Some "5" /\
  textShown (commentButton (W := Sample.Log) Sample.colors Sample.t
               Sample.spacing Sample.typography Sample.idle)
  = Some "".
Proof.
  destruct (comment_count_display Sample.Log Sample.colors Sample.t
              Sample.spacing Sample.typography Sample.active eq_refl)
    as (_ & _ & Hpos & Hfive).
  destruct (comment_count_display Sample.Log Sample.colors Sample.t
              Sample.spacing Sample.typography Sample.idle eq_refl)
    as (_ & Hzero & _).
  split; [|split].
  - apply Hpos; [reflexivity | unfold Js.MAX_SAFE_INTEGER; cbn; lia].
  - apply Hfive. reflexivity.
  - apply Hzero. reflexivity.
Defined.

Lemma helpful_count_display_witness :
  (exists digits : string,
      Js.readDecimal digits = Some 3 /\
      Js.startsWithZero digits = false /\
      textShown (helpfulButton (W := Sample.Log) Sample.colors Sample.t
                   Sample.spacing Sample.typography Sample.active)
      = Some (Sample.t "nugget.interaction.thatHelps" ++ " "
              ++ "(" ++ digits ++ ")")) /\
  textShown (helpfulButton (W := Sample.Log) Sample.colors Sample.t
               Sample.spacing Sample.typography Sample.active)
  = Some (Sample.t "nugget.interaction.thatHelps" ++ " " ++ "(3)") /\
  textShown (helpfulButton (W := Sample.Log) Sample.colors Sample.t
               Sample.spacing Sample.typography Sample.idle)
  = Some (Sample.t "nugget.interaction.thatHelps" ++ " ").
Proof.
  destruct (helpful_count_display Sample.Log Sample.colors Sample.t
              Sample.spacing Sample.typography Sample.active)
    as (_ & Hpos & _ & _ & _ & Hthree).
  destruct (helpful_count_display Sample.Log Sample.colors Sample.t
              Sample.spacing Sample.typography Sample.idle)
    as (_ & _ & Hzero & _).
  split; [|split].
  - apply Hpos; [reflexivity | unfold Js.MAX_SAFE_INTEGER; cbn; lia].
  - apply Hthree. reflexivity.
  - apply Hzero. reflexivity.
Defined.

Lemma nonpositive_counts_render_as_zero_witness :
  findControl Comment (Sample.render Sample.negative)
  = Some (commentButton Sample.colors Sample.t Sample.spacing
            Sample.typography Sample.negative) /\
  textShown (commentButton (W := Sample.Log) Sample.colors Sample.t
               Sample.spacing Sample.typography Sample.negative)
  = Some "" /\
  textShown (helpfulButton (W := Sample.Log) Sample.colors Sample.t
               Sample.spacing Sample.typography Sample.negative)
  = Some (Sample.t "nugget.interaction.thatHelps" ++ " ") /\
  Sample.render Sample.negative
  = Sample.render (withCounts 0 0 Sample.negative).
Proof.
  destruct (nonpositive_counts_render_as_zero Sample.Log Sample.colors
              Sample.t Sample.spacing Sample.typography Sample.negative)
    as (_ & Hfind & Hcomment & Hhelpful & Hboth).
  split; [|split; [|split]].
  - apply Hfind. reflexivity.
  - apply Hcomment. cbn. lia.
  - apply Hhelpful. cbn. lia.
  - apply Hboth; cbn; lia.
Defined.

End NuggetCardInteractionSpec.

(** ** More on BottomTabIcon *)

Module BottomTabIconFacts.

Import Tree BottomTabIcon Inspect.

Lemma kind_cases (name : string) :
  In name tabKinds ->
  name = "home" \/ name = "folder" \/ name = "chat" \/ name = "ai".
Proof.
  unfold tabKinds. simpl.
  intros [H|[H|[H|[H|[]]]]]; subst; auto.
Qed.

Lemma not_kind (name : string) :
  ~ In name tabKinds ->
  name <> "home" /\ name <> "folder" /\ name <> "chat" /\ name <> "ai".
Proof.
  unfold tabKinds. simpl. intros H.
  repeat split; intros ->; apply H; auto.
Qed.

(** The fallback glyph marks exactly the names outside the declared tab
    kinds: no declared kind is drawn with 'help-circle'. *)
Theorem getIconName_fallback_iff (name : string) :
  getIconName name = "help-circle" <-> ~ In name tabKinds.
Proof.
  split.
  - intros Hg Hin.
    destruct (kind_cases name Hin) as [E | [E | [E | E]]];
      subst name; discriminate Hg.
  - intros Hout. destruct (not_kind name Hout) as (H1 & H2 & H3 & H4).
    now apply BottomTabIconSpec.getIconName_default.
Qed.

Lemma getIconName_fallback_iff_witness :
  getIconName "profile" = "help-circle" /\ ~ In "help-circle" tabKinds.
Proof.
  split.
  - apply (proj2 (getIconName_fallback_iff "profile")).
    simpl. intros [H|[H|[H|[H|[]]]]]; discriminate H.
  - apply (proj1 (getIconName_fallback_iff "help-circle")).
    reflexivity.
Defined.

(** Two declared tab kinds never share a glyph. *)
Theorem getIconName_injective_on_kinds (a b : string) :
  In a tabKinds -> In b tabKinds ->
  getIconName a = getIconName b -> a = b.
Proof.
  intros Ha Hb.
  destruct (kind_cases a Ha) as [Ea | [Ea | [Ea | Ea]]];
    destruct (kind_cases b Hb) as [Eb | [Eb | [Eb | Eb]]];
    subst a b; intros H; try reflexivity; discriminate H.
Qed.

Lemma getIconName_injective_on_kinds_witness : "chat" = "chat".
Proof.
  apply (getIconName_injective_on_kinds "chat" "chat").
  - simpl; auto.
  - simpl; auto.
  - reflexivity.
Defined.

(** Whatever the name, the glyph asked for is one of five. *)
Lemma getIconName_range (name : string) : In (getIconName name) tabGlyphs.
Proof.
  unfold getIconName, tabGlyphs.
  destruct (String.eqb name "home"); [simpl; auto|].
  destruct (String.eqb name "folder"); [simpl; auto|].
  destruct (String.eqb name "chat"); [simpl; auto|].
  destruct (String.eqb name "ai"); simpl; auto 6.
Qed.

(** The rendered view is one accessible image that holds exactly one icon:
    the icon's glyph is one of the five, its colour is the [color]
    property, its size is the [size] property or [ui.icon.large] when the
    property is omitted; the [style] property goes to the outer view and
    not to the icon; nothing in the view can be pressed. *)
Theorem BottomTabIcon_icon (W : Type) (large : Z) (props : BottomTabIconProps) :
  let view := BottomTabIcon (W := W) large props in
  (exists g, glyphs view = [g] /\ In g tabGlyphs) /\
  map colorOf (childrenOf view) = [Some (color props)] /\
  iconSizes view
  = [match size props with Some n => n | None => large end] /\
  styleOf view = style props /\
  map styleOf (childrenOf view) = [None] /\
  option_map accessible (a11yOf view) = Some true /\
  touchables view = [].
Proof.
  intros view. split.
  - exists (getIconName (name props)). split; [reflexivity|].
    apply getIconName_range.
  - repeat split.
Qed.

End BottomTabIconFacts.

(** ** More on style resolution *)

Module StyleFacts.

Import Style Inspect.

Lemma lookupLast_app (k : string) (a b : Object) :
  lookupLast k (List.app a b)
  = match lookupLast k b with
    | Some v => Some v
    | None => lookupLast k a
    end.
Proof.
  induction a as [|[k' v] a IH]; simpl.
  - now destruct (lookupLast k b).
  - rewrite IH. destruct (lookupLast k b); [reflexivity|].
    reflexivity.
Qed.

Lemma lookupLast_absent (k : string) (o : Object) :
  ~ In k (keys o) -> lookupLast k o = None.
Proof.
  induction o as [|[k' v] o IH]; simpl; intros Hk; [reflexivity|].
  rewrite IH by tauto.
  destruct (String.eqb_spec k' k) as [E|E]; [|reflexivity].
  exfalso. apply Hk. now left.
Qed.

(** An entry [cond && o] after a base object leaves every key that [o]
    does not mention as the base has it. *)
Lemma get_beside_override (base o : Object) (cond : bool) (k : string) :
  ~ In k (keys o) ->
  get (SArr [SObj base; and_ cond o]) k = lookupLast k base.
Proof.
  intros Hk. unfold get. simpl. rewrite lookupLast_app.
  destruct cond; simpl.
  - rewrite lookupLast_app. simpl.
    now rewrite (lookupLast_absent k o Hk).
  - reflexivity.
Qed.

End StyleFacts.

(** ** More on printed numbers *)

Module NumberFacts.

Import Js.

Lemma to_int_proper (n : Z) :
  Z.to_int n <> Decimal.Pos Decimal.Nil /\
  Z.to_int n <> Decimal.Neg Decimal.Nil.
Proof.
  destruct n as [|q|q]; simpl; split; intros H;
    try discriminate H; injection H as H;
    now apply DecimalPos.Unsigned.to_uint_nonnil in H.
Qed.

(** Printing an integer and reading the digits back gives the integer. *)
Lemma Number_toString_read (n : Z) :
  NilZero.int_of_string (Number_toString n) = Some (Z.to_int n).
Proof.
  unfold Number_toString. destruct (to_int_proper n) as [Hp Hn].
  now apply NilZero.isi.
Qed.

Lemma Number_toString_inj (a b : Z) :
  Number_toString a = Number_toString b -> a = b.
Proof.
  intros H. apply DecimalZ.to_int_inj.
  apply (f_equal NilZero.int_of_string) in H.
  rewrite !Number_toString_read in H. now injection H.
Qed.

Lemma Number_toString_nonempty (n : Z) : Number_toString n <> "".
Proof.
  intros H. apply (f_equal NilZero.int_of_string) in H.
  rewrite Number_toString_read in H. discriminate H.
Qed.

Lemma append_inj_l (pre a b : string) : pre ++ a = pre ++ b -> a = b.
Proof.
  induction pre as [|c pre IH]; simpl; intros H; [exact H|].
  injection H as H. now apply IH.
Qed.

Lemma append_inj_r (a b : string) (c : ascii) :
  a ++ String c "" = b ++ String c "" -> a = b.
Proof.
  revert b. induction a as [|x a IH]; intros [|y b]; simpl; intros H.
  - reflexivity.
  - injection H as _ H. destruct b; discriminate H.
  - injection H as _ H. destruct a; discriminate H.
  - injection H as -> H. f_equal. now apply IH.
Qed.

End NumberFacts.

(** ** More on NuggetCardInteraction *)

Module NuggetCardInteractionFacts.

Import Tree NuggetCardInteraction Inspect.

Section Rendering.

Variable W : Type.
Variable colors : Theme.Colors.
Variable t : string -> string.
Variable spacing : Theme.Spacing.
Variable typography : Theme.Typography.

#[local] Abbreviation Props := (NuggetCardInteractionProps W).
#[local] Abbreviation render :=
  (NuggetCardInteraction (W := W) colors t spacing typography).
#[local] Abbreviation commentB :=
  (commentButton (W := W) colors t spacing typography).
#[local] Abbreviation helpfulB :=
  (helpfulButton (W := W) colors t spacing typography).
#[local] Abbreviation shareB := (shareButton (W := W) colors t spacing).
#[local] Abbreviation saveB := (saveButton (W := W) colors t spacing).

Ltac shape p :=
  unfold NuggetCardInteraction, hidden, helpfulButton, saveButton,
    commentButton, shareButton in *;
  destruct (hideCommentButton p) as [[|]|];
  destruct (isHelpful p); destruct (isSaved p).

(** The row is a horizontal container with the divider colour on its top
    border and two groups: the comment control (unless hidden) and the
    mark-helpful control on the left, the share and the save control on the
    right, in this order; so it holds three controls when the comment
    control is hidden and four otherwise. *)
Theorem row_layout (p : Props) :
  map touchables (childrenOf (render p))
  = [ List.app (if hidden p then [] else [commentB p]) [helpfulB p];
      [shareB p; saveB p] ] /\
  List.length (touchables (render p)) = (if hidden p then 3 else 4)%nat /\
  styleKey (render p) "flexDirection" = Some (Style.SStr "row") /\
  styleKey (render p) "borderTopWidth" = Some Style.SHairlineWidth /\
  styleKey (render p) "borderTopColor"
  = Some (Style.SStr (Theme.divider colors)).
Proof.
  unfold NuggetCardInteraction. destruct (hidden p); repeat split.
Qed.

(** No two controls of the row are mistaken for one another: each of the
    four kinds of control is shown by exactly one touchable of the tree when
    it is rendered, and by none when it is not. *)
Theorem each_control_once (p : Props) (c : Control) :
  occurrences c (render p)
  = (if isRendered c (render p) then 1 else 0)%nat /\
  (c <> Comment -> occurrences c (render p) = 1%nat).
Proof.
  unfold occurrences, isRendered, findControl.
  split; [|intros Hc]; destruct c; try (now elim Hc);
    shape p; reflexivity.
Qed.

(** Every control of the row is exposed to assistive technology as an
    accessible button, whatever the properties. *)
Theorem controls_are_buttons (p : Props) :
  forallb isButton (touchables (render p)) = true.
Proof. shape p; reflexivity. Qed.

(** Only the two toggles report a selected-state: the mark-helpful control
    reports [isHelpful], the save control [isSaved], the comment and the
    share control none. *)
Theorem selected_only_on_toggles (p : Props) :
  map selectedOf (touchables (render p))
  = List.app (if hidden p then [] else [None])
      [Some (isHelpful p); None; Some (isSaved p)].
Proof.
  rewrite NuggetCardInteractionSpec.touchables_render.
  destruct (hidden p); reflexivity.
Qed.

(** Each control shows exactly one icon; every icon has size 20 and a glyph
    out of a fixed list of six. *)
Theorem icons_of_row (p : Props) :
  Forall (fun g => In g interactionGlyphs) (glyphs (render p)) /\
  Forall (fun n => n = 20) (iconSizes (render p)) /\
  map (fun e => List.length (glyphs e)) (touchables (render p))
  = map (fun _ => 1%nat) (touchables (render p)).
Proof.
  split; [|split].
  - rewrite NuggetCardInteractionSpec.glyphs_render.
    unfold interactionGlyphs.
    destruct (hidden p), (isHelpful p), (isSaved p);
      repeat (apply Forall_cons; [simpl; auto 8|]); apply Forall_nil.
  - unfold NuggetCardInteraction, commentButton, helpfulButton, shareButton,
      saveButton.
    destruct (hidden p);
      repeat (apply Forall_cons; [reflexivity|]); apply Forall_nil.
  - rewrite NuggetCardInteractionSpec.touchables_render.
    destruct (hidden p); reflexivity.
Qed.

(** In a control that has both an icon and a text, the two have the same
    colour; the icons of the comment and of the share control are always in
    the secondary colour. *)
Theorem colours_agree (p : Props) :
  textColor (helpfulB p) = option_map Style.SStr (iconColor (helpfulB p)) /\
  textColor (commentB p) = option_map Style.SStr (iconColor (commentB p)) /\
  iconColor (commentB p) = Some (Theme.textSecondary colors) /\
  iconColor (shareB p) = Some (Theme.textSecondary colors).
Proof.
  unfold helpfulButton, commentButton, shareButton.
  destruct (isHelpful p); repeat split.
Qed.

(** Hiding the comment control changes nothing of the mark-helpful
    control's style but the left margin: every other key resolves to what
    the style sheet entry [actionButton] gives. *)
Theorem margin_override_is_local (p : Props) (k : string) :
  k <> "marginLeft" ->
  styleKey (helpfulB p) k = Style.lookupLast k (styles_actionButton spacing).
Proof.
  intros Hk. unfold helpfulButton, styleKey. cbn [styleOf].
  apply StyleFacts.get_beside_override.
  simpl. intros [E|[]]. now apply Hk.
Qed.

(** The colour given inline to the two texts adds to the style sheet and
    replaces nothing of it: every key of the helpful text other than the
    colour resolves as in the sheet entry [actionText], every such key of
    the count text as in [countText], and neither entry sets a colour. *)
Theorem text_colour_is_local (p : Props) (k : string) :
  k <> "color" ->
  option_map (fun x => styleKey x k) (textIn (helpfulB p))
  = Some (Style.lookupLast k (styles_actionText spacing typography)) /\
  option_map (fun x => styleKey x k) (textIn (commentB p))
  = Some (Style.lookupLast k (styles_countText spacing typography)) /\
  Style.lookupLast "color" (styles_actionText spacing typography) = None /\
  Style.lookupLast "color" (styles_countText spacing typography) = None.
Proof.
  intros Hk.
  assert (Hout : forall c : string,
             ~ In k (keys [("color", Style.SStr c)])).
  { intros c. simpl. intros [E|[]]. now apply Hk. }
  unfold helpfulButton, commentButton.
  cbn [textIn childrenOf find isText option_map styleKey styleOf].
  split; [|split; [|split; reflexivity]]; f_equal.
  - exact (StyleFacts.get_beside_override _ _ true k (Hout _)).
  - exact (StyleFacts.get_beside_override _ _ true k (Hout _)).
Qed.

(** The share control does not depend on the state of the card: it always
    shows the paper plane in the secondary colour, turned by 20 degrees,
    under the 'share' label, and two property records that carry the same
    share callback give the same control. *)
Theorem share_is_static (p q : Props) :
  onSharePress p = onSharePress q ->
  shareB p = shareB q /\
  findControl Share (render q) = Some (shareB p) /\
  iconGlyph (shareB p) = Some "paper-plane-outline" /\
  option_map (fun i => styleKey i "transform") (iconIn (shareB p))
  = Some (Some (Style.STransform [("rotate", "20deg")])) /\
  labelOf (shareB p) = Some (t "nugget.interaction.share").
Proof.
  intros E.
  assert (Es : shareB p = shareB q) by (unfold shareButton; now rewrite E).
  rewrite NuggetCardInteractionSpec.find_share, Es.
  repeat split.
Qed.

(** A positive count is never displayed like zero, and the displayed text
    tells the count: two positive comment counts with the same count text
    are equal, and so are two positive helpful counts with the same label
    text. *)
Theorem count_text_faithful (p q : Props) :
  (0 < commentCount p -> textShown (commentB p) <> Some "") /\
  (0 < commentCount p -> 0 < commentCount q ->
     textShown (commentB p) = textShown (commentB q) ->
     commentCount p = commentCount q) /\
  (0 < helpfulCount p -> 0 < helpfulCount q ->
     textShown (helpfulB p) = textShown (helpfulB q) ->
     helpfulCount p = helpfulCount q).
Proof.
  rewrite !NuggetCardInteractionSpec.comment_text,
    !NuggetCardInteractionSpec.helpful_text.
  split; [|split].
  - intros Hp. rewrite (JsFacts.gtb_pos _ Hp). intros [= H].
    exact (NumberFacts.Number_toString_nonempty _ H).
  - intros Hp Hq. rewrite (JsFacts.gtb_pos _ Hp), (JsFacts.gtb_pos _ Hq).
    intros [= H]. exact (NumberFacts.Number_toString_inj _ _ H).
  - intros Hp Hq. rewrite (JsFacts.gtb_pos _ Hp), (JsFacts.gtb_pos _ Hq).
    intros [= H].
    apply NumberFacts.append_inj_l in H.
    apply (NumberFacts.append_inj_l " (") in H.
    apply NumberFacts.append_inj_r in H.
    exact (NumberFacts.Number_toString_inj _ _ H).
Qed.

(** With the comment control hidden the comment callback cannot be
    reached: a tap on the comment control finds nothing to press, and the
    handler of every control left in the row is the callback of a control
    other than the comment control. *)
Theorem hidden_comment_unreachable (p : Props) (w : W) :
  hidden p = true ->
  tap Comment (render p) w = None /\
  Forall (fun e => exists c, c <> Comment /\ onPressOf e = callbackOf p c)
         (touchables (render p)).
Proof.
  intros Hh. split.
  - unfold tap. now rewrite NuggetCardInteractionSpec.find_comment, Hh.
  - rewrite NuggetCardInteractionSpec.touchables_render, Hh.
    repeat apply Forall_cons; [| | |apply Forall_nil].
    + exists Helpful. split; [discriminate | reflexivity].
    + exists Share. split; [discriminate | reflexivity].
    + exists Save. split; [discriminate | reflexivity].
Qed.

End Rendering.

(** What the row shows depends on the two counts, the two flags and
    [hideCommentButton] only: two property records that agree on these give
    trees that differ in nothing but the handlers, whatever callbacks they
    carry and whatever world the callbacks act on. *)
Theorem appearance_ignores_callbacks
  (W1 W2 : Type) (colors : Theme.Colors) (t : string -> string)
  (spacing : Theme.Spacing) (typography : Theme.Typography)
  (p : NuggetCardInteractionProps W1) (q : NuggetCardInteractionProps W2) :
  helpfulCount p = helpfulCount q ->
  commentCount p = commentCount q ->
  isHelpful p = isHelpful q ->
  isSaved p = isSaved q ->
  hidden p = hidden q ->
  appearance (NuggetCardInteraction colors t spacing typography p)
  = appearance (NuggetCardInteraction colors t spacing typography q).
Proof.
  intros Eh Ec Ei Es Ed.
  unfold NuggetCardInteraction, commentButton, helpfulButton, shareButton,
    saveButton.
  rewrite Eh, Ec, Ei, Es, Ed.
  destruct (hidden q); reflexivity.
Qed.

Lemma appearance_ignores_callbacks_witness :
  appearance (Sample.render Sample.active)
  = appearance (NuggetCardInteraction (W := unit) Sample.colors Sample.t
                  Sample.spacing Sample.typography
                  (mkProps 3 5 true true None None None None (Some false))).
Proof.
  apply (appearance_ignores_callbacks Sample.Log unit Sample.colors Sample.t
           Sample.spacing Sample.typography Sample.active
           (mkProps 3 5 true true None None None None (Some false)));
    reflexivity.
Defined.

Lemma share_is_static_witness :
  shareButton (W := Sample.Log) Sample.colors Sample.t Sample.spacing
    Sample.idle
  = shareButton Sample.colors Sample.t Sample.spacing Sample.compact.
Proof.
  apply (share_is_static Sample.Log Sample.colors Sample.t Sample.spacing
           Sample.typography Sample.idle Sample.compact).
  reflexivity.
Defined.

Lemma count_text_faithful_witness :
  textShown (commentButton (W := Sample.Log) Sample.colors Sample.t
               Sample.spacing Sample.typography Sample.active)
  <> Some "" /\
  helpfulCount Sample.active
  = helpfulCount (withHide (Some true) Sample.active).
Proof.
  split.
  - apply (count_text_faithful Sample.Log Sample.colors Sample.t
             Sample.spacing Sample.typography Sample.active Sample.active).
    reflexivity.
  - apply (count_text_faithful Sample.Log Sample.colors Sample.t
             Sample.spacing Sample.typography Sample.active
             (withHide (Some true) Sample.active));
      reflexivity.
Defined.

Lemma hidden_comment_unreachable_witness :
  tap Comment
      (Sample.render (withHide (Some true) Sample.active)) []
  = None.
Proof.
  apply (hidden_comment_unreachable Sample.Log Sample.colors Sample.t
           Sample.spacing Sample.typography
           (withHide (Some true) Sample.active) []).
  reflexivity.
Defined.

Lemma each_control_once_witness :
  occurrences Save (Sample.render Sample.active) = 1%nat.
Proof.
  apply (each_control_once Sample.Log Sample.colors Sample.t Sample.spacing
           Sample.typography Sample.active Save).
  discriminate.
Defined.

Lemma margin_override_is_local_witness :
  styleKey (helpfulButton (W := Sample.Log) Sample.colors Sample.t
              Sample.spacing Sample.typography Sample.compact)
           "paddingVertical"
  = Some (Style.SNum 4).
Proof.
  apply (margin_override_is_local Sample.Log Sample.colors Sample.t
           Sample.spacing Sample.typography Sample.compact "paddingVertical").
  discriminate.
Defined.

Lemma text_colour_is_local_witness :
  option_map (fun x => styleKey x "fontSize")
    (textIn (helpfulButton (W := Sample.Log) Sample.colors Sample.t
               Sample.spacing Sample.typography Sample.active))
  = Some (Some (Style.SNum 14)).
Proof.
  apply (text_colour_is_local Sample.Log Sample.colors Sample.t
           Sample.spacing Sample.typography Sample.active "fontSize").
  discriminate.
Defined.

End NuggetCardInteractionFacts.
